(** * pdf_to_text_temp.py: page-by-page text extraction, formatted and written once

    A shallow embedding of [supplemental-resources/pdf_to_text_temp.py].

    The script is nineteen lines of glue around three library calls
    ([PdfReader], [page.extract_text], [Path.write_text]) and [print].  The
    embedding keeps that shape: the script is a computation in a small
    state-and-exception monad over a [World] (files, standard streams, the
    calls made on the file system), and the three library calls are primitives
    whose behaviour is fixed by an environment [Env] that stands for the
    platform and the document library. *)

From Stdlib Require Import DecimalString DecimalNat.
From stdpp Require Import gmap strings list fin_maps.

(** ** Python values *)

(** A Python [str] is a sequence of Unicode code points, [bytes] a sequence of
    octets. *)
Definition codepoint : Type := N.
Definition pystr : Type := list codepoint.
Definition bytes : Type := list Byte.byte.

(** A literal of the source text; every literal of the script is ASCII. *)
Definition lit (s : string) : pystr :=
  map Ascii.N_of_ascii (String.list_ascii_of_string s).
Arguments lit s%_string.

(** ["\n"] *)
Definition NL : pystr := [10%N].

(** [str(n)] for a non-negative [int]: its decimal digits. *)
Definition str_of_int (n : nat) : pystr :=
  lit (NilEmpty.string_of_uint (Nat.to_uint n)).

(** [sep.join(xs)] *)
Fixpoint join (sep : pystr) (xs : list pystr) : pystr :=
  match xs with
  | [] => []
  | x :: rest =>
      match rest with
      | [] => x
      | _ :: _ => x ++ sep ++ join sep rest
      end
  end.

(** [r or d], for [r] a [str] or [None]: both [None] and the empty string are
    falsy. *)
Definition py_or (r : option pystr) (d : pystr) : pystr :=
  match r with
  | None => d
  | Some [] => d
  | Some s => s
  end.

(** ** Text encoding, as [write_text] applies it *)

Definition octet (n : N) : Byte.byte :=
  match Byte.of_N n with
  | Some b => b
  | None => Byte.x00
  end.

(** UTF-8 with the [strict] error handler: surrogates (U+D800..U+DFFF) have no
    encoding. *)
Definition utf8_encode_cp (c : codepoint) : option bytes :=
  if (c <? 0x80)%N then Some [octet c]
  else if (c <? 0x800)%N then
    Some [octet (N.lor 0xC0 (N.shiftr c 6));
          octet (N.lor 0x80 (N.land c 0x3F))]
  else if (c <? 0x10000)%N then
    if ((0xD800 <=? c) && (c <=? 0xDFFF))%N then None
    else
      Some [octet (N.lor 0xE0 (N.shiftr c 12));
            octet (N.lor 0x80 (N.land (N.shiftr c 6) 0x3F));
            octet (N.lor 0x80 (N.land c 0x3F))]
  else if (c <? 0x110000)%N then
    Some [octet (N.lor 0xF0 (N.shiftr c 18));
          octet (N.lor 0x80 (N.land (N.shiftr c 12) 0x3F));
          octet (N.lor 0x80 (N.land (N.shiftr c 6) 0x3F));
          octet (N.lor 0x80 (N.land c 0x3F))]
  else None.

Fixpoint utf8_encode (s : pystr) : option bytes :=
  match s with
  | [] => Some []
  | c :: rest =>
      match utf8_encode_cp c, utf8_encode rest with
      | Some b, Some bs => Some (b ++ bs)
      | _, _ => None
      end
  end.

(** A file opened for writing in text mode with [newline=None] writes the
    platform's line separator for every ["\n"]. *)
Definition translate_newlines (linesep : pystr) (s : pystr) : pystr :=
  flat_map (fun c => if (c =? 10)%N then linesep else [c]) s.

(** ** Exceptions *)

Inductive Exception : Type :=
| SystemExit (msg : pystr)
| FileNotFoundError (path : pystr)
| PdfReadError (msg : pystr)     (* whatever the document library raises *)
| OSError (path : pystr)         (* the file cannot be opened for writing *)
| UnicodeEncodeError (c : codepoint)
| NoSpaceError (path : pystr).   (* the device is full *)

Inductive Result (A : Type) : Type :=
| Ok (a : A)
| Err (e : Exception).
Arguments Ok {A} a.
Arguments Err {A} e.

(** ** The document library, as a black box *)

(** What one call of [page.extract_text()] does: raise, or return a [str] or
    [None]. *)
Inductive Page : Type :=
| Returns (r : option pystr)
| Raises (e : Exception).

(** ** Platform and library *)

Record Env : Type := {
  (** [str(Path(s))], the path as pathlib renders it *)
  path_str : pystr -> pystr;
  (** the file a path resolves to *)
  locate : pystr -> pystr;
  (** the document library reading a file's content *)
  pdf_parse : bytes -> Result (list Page);
  (** the file can be opened for writing: its directory exists and the
      process may write there; taken to depend on the path alone, not on
      what earlier runs left there *)
  can_create : pystr -> bool;
  (** [os.linesep] *)
  linesep : pystr;
  (** octets the device still takes, if that is limited *)
  room : option nat;
}.

(** ** The world the script runs in *)

(** The script's calls on the file system. *)
Inductive Call : Type :=
| CallPdfReader (path : pystr)
| CallWriteText (path : pystr) (data : pystr).

Record World : Type := {
  files : gmap pystr bytes;
  stdout : pystr;
  stderr : pystr;
  calls : list Call;
}.

Definition set_files (f : gmap pystr bytes) (w : World) : World :=
  {| files := f; stdout := stdout w; stderr := stderr w; calls := calls w |}.
Definition put_stdout (s : pystr) (w : World) : World :=
  {| files := files w; stdout := stdout w ++ s; stderr := stderr w; calls := calls w |}.
Definition put_stderr (s : pystr) (w : World) : World :=
  {| files := files w; stdout := stdout w; stderr := stderr w ++ s; calls := calls w |}.
Definition log (c : Call) (w : World) : World :=
  {| files := files w; stdout := stdout w; stderr := stderr w; calls := calls w ++ [c] |}.

(** ** The monad of the script: state and exceptions *)

Definition M (A : Type) : Type := World -> Result A * World.

Definition ret {A} (a : A) : M A := fun w => (Ok a, w).
Definition raise {A} (e : Exception) : M A := fun w => (Err e, w).
Definition bind {A B} (c : M A) (k : A -> M B) : M B :=
  fun w =>
    match c w with
    | (Ok a, w') => k a w'
    | (Err e, w') => (Err e, w')
    end.

Notation "x <-- c ;; k" := (bind c (fun x => k))
  (at level 100, c at next level, k at level 200, right associativity).

(** ** Library calls *)

Section Script.
Context (env : Env).

(** [PdfReader(source)]: open the file and parse it.  What the library
    logs on standard error while it reads is not modelled. *)
Definition PdfReader (source : pystr) : M (list Page) :=
  fun w =>
    let w := log (CallPdfReader source) w in
    match files w !! locate env source with
    | None => (Err (FileNotFoundError source), w)
    | Some content => (pdf_parse env content, w)
    end.

(** [page.extract_text()]; what the library logs is not modelled here
    either. *)
Definition extract_text (page : Page) : M (option pystr) :=
  match page with
  | Returns r => ret r
  | Raises e => raise e
  end.

(** The first code point of a text that UTF-8 cannot encode. *)
Definition unencodable (s : pystr) : option codepoint :=
  List.find (fun c => bool_decide (utf8_encode_cp c = None)) s.

(** [target.write_text(data, encoding="utf-8")]: open the file for writing
    (which creates or empties it), encode the text, write the octets. *)
Definition write_text (target : pystr) (data : pystr) : M unit :=
  fun w =>
    let w := log (CallWriteText target data) w in
    if negb (can_create env target) then (Err (OSError target), w)
    else
      let here := locate env target in
      match utf8_encode (translate_newlines (linesep env) data) with
      | None =>
          (Err (UnicodeEncodeError
                  (default 0%N
                     (unencodable (translate_newlines (linesep env) data)))),
           set_files (<[here := []]> (files w)) w)
      | Some octets =>
          match room env with
          | Some n =>
              if n <? length octets then
                (Err (NoSpaceError target),
                 set_files (<[here := take n octets]> (files w)) w)
              else (Ok tt, set_files (<[here := octets]> (files w)) w)
          | None => (Ok tt, set_files (<[here := octets]> (files w)) w)
          end
      end.

(** [print(s)]; standard output is taken to accept the text. *)
Definition print (s : pystr) : M unit :=
  fun w => (Ok tt, put_stdout (s ++ NL) w).

(** ** The script *)

Definition usage : pystr :=
  lit "Usage: python pdf_to_text_temp.py <input.pdf> <output.txt>".

(** [f"--- PAGE {idx} ---\n{text}"] *)
Definition section_string (idx : nat) (text : pystr) : pystr :=
  lit "--- PAGE " ++ str_of_int idx ++ lit " ---" ++ NL ++ text.

(** The loop [for idx, page in enumerate(reader.pages, start=1)], with the
    list [sections] it appends to. *)
Fixpoint extract_pages (idx : nat) (pages : list Page) (sections : list pystr)
  : M (list pystr) :=
  match pages with
  | [] => ret sections
  | page :: rest =>
      r <-- extract_text page ;;
      let text := py_or r [] in
      extract_pages (S idx) rest (sections ++ [section_string idx text])
  end.

(** [f"Wrote {target} ({len(reader.pages)} pages)"] *)
Definition completion_message (target : pystr) (pages : nat) : pystr :=
  lit "Wrote " ++ path_str env target ++ lit " (" ++ str_of_int pages
    ++ lit " pages)".

(** [sys.argv[i]]; the script reads it only after checking the length.
    [Path(sys.argv[i])] is kept as the string it is made from: [path_str]
    renders it where the script prints it, [locate] resolves it where the
    script opens it. *)
Definition argv_at (argv : list pystr) (i : nat) : pystr :=
  nth i argv [].

Definition main (argv : list pystr) : M unit :=
  if length argv <? 3 then raise (SystemExit usage)
  else
    let source := argv_at argv 1 in
    let target := argv_at argv 2 in
    pages <-- PdfReader source ;;
    sections <-- extract_pages 1 pages [] ;;
    _ <-- write_text target (join (NL ++ NL) sections) ;;
    print (completion_message target (length pages)).

(** ** The process boundary *)

(** What the interpreter writes to standard error for an exception nobody
    caught: the argument of a [SystemExit], a traceback for the others. *)
Definition exception_name (e : Exception) : pystr :=
  match e with
  | SystemExit _ => lit "SystemExit"
  | FileNotFoundError _ => lit "FileNotFoundError"
  | PdfReadError _ => lit "PdfReadError"
  | OSError _ => lit "OSError"
  | UnicodeEncodeError _ => lit "UnicodeEncodeError"
  | NoSpaceError _ => lit "OSError"
  end.

Definition report (e : Exception) : pystr :=
  match e with
  | SystemExit msg => msg ++ NL
  | _ => lit "Traceback (most recent call last): " ++ exception_name e ++ NL
  end.

(** Running the script as a process: exit status and final world. *)
Definition python (argv : list pystr) (w : World) : nat * World :=
  match main argv w with
  | (Ok _, w') => (0, w')
  | (Err e, w') => (1, put_stderr (report e) w')
  end.

End Script.

Arguments extract_text page w /.
Arguments print s w /.

(** ** The script's results in closed form *)

(** The page marker, ["--- PAGE {idx} ---\n"]. *)
Definition marker (idx : nat) : pystr :=
  lit "--- PAGE " ++ str_of_int idx ++ lit " ---" ++ NL.

Arguments section_string : simpl never.
Arguments marker : simpl never.

(** The text the loop uses for a page whose extraction returns. *)
Definition page_text (page : Page) : pystr :=
  match page with
  | Returns r => py_or r []
  | Raises _ => []
  end.

(** The exception of the first page whose extraction raises. *)
Fixpoint first_raise (pages : list Page) : option Exception :=
  match pages with
  | [] => None
  | Returns _ :: rest => first_raise rest
  | Raises e :: _ => Some e
  end.

(** The Sections of consecutive pages, the first of them numbered [idx]. *)
Fixpoint sections_from (idx : nat) (texts : list pystr) : list pystr :=
  match texts with
  | [] => []
  | t :: rest => section_string idx t :: sections_from (S idx) rest
  end.

(** The Output text of a document with these page texts. *)
Definition output_text (texts : list pystr) : pystr :=
  join (NL ++ NL) (sections_from 1 texts).

(** The octets a text becomes in a file written in text mode as UTF-8. *)
Definition file_octets (env : Env) (data : pystr) : option bytes :=
  utf8_encode (translate_newlines (linesep env) data).

(** What [write_text] leaves at the destination when it fails after opening
    it. *)
Definition leftover (env : Env) (data : pystr) : bytes :=
  match file_octets env data, room env with
  | Some octets, Some n => take n octets
  | _, _ => []
  end.

(** Whether everything the write needs is there. *)
Definition write_succeeds (env : Env) (target data : pystr) : bool :=
  can_create env target &&
  match file_octets env data, room env with
  | Some octets, Some n => negb (n <? length octets)
  | Some _, None => true
  | None, _ => false
  end.

(** ** The specification's wording of the Output text *)

(** The Sections of the specification: for [i = 1..N], the marker numbered
    [i] followed by the text of page [i]. *)
Definition spec_sections (texts : list pystr) : list pystr :=
  map (fun i => marker i ++ nth (i - 1) texts []) (seq 1 (length texts)).

(** The Output text of the specification: the Sections joined by ["\n\n"]. *)
Definition spec_output (texts : list pystr) : pystr :=
  join (NL ++ NL) (spec_sections texts).

(** ** Concrete platforms, documents and worlds *)

Module Scenario.

(** Carriage return and line feed, the line separator of Windows. *)
Definition CRLF : pystr := [13%N; 10%N].

(** A POSIX platform on which every file of the working directory can be
    written, with a document library that reads the same document from every
    file. *)
Definition posix (doc : Result (list Page)) : Env :=
  {| path_str := fun s => s;
     locate := fun s => s;
     pdf_parse := fun _ => doc;
     can_create := fun _ => true;
     linesep := NL;
     room := None |}.

(** The same on Windows. *)
Definition windows (doc : Result (list Page)) : Env :=
  {| path_str := fun s => s;
     locate := fun s => s;
     pdf_parse := fun _ => doc;
     can_create := fun _ => true;
     linesep := CRLF;
     room := None |}.

(** A POSIX platform whose device takes six more octets. *)
Definition nearly_full (doc : Result (list Page)) : Env :=
  {| path_str := fun s => s;
     locate := fun s => s;
     pdf_parse := fun _ => doc;
     can_create := fun _ => true;
     linesep := NL;
     room := Some 6 |}.

(** A POSIX platform on which nothing can be written. *)
Definition read_only (doc : Result (list Page)) : Env :=
  {| path_str := fun s => s;
     locate := fun s => s;
     pdf_parse := fun _ => doc;
     can_create := fun _ => false;
     linesep := NL;
     room := None |}.

(** A lenient document library: every file is a document of one page, whose
    text is the file's content read as Latin-1. *)
Definition lenient : Env :=
  {| path_str := fun s => s;
     locate := fun s => s;
     pdf_parse := fun content => Ok [Returns (Some (map Byte.to_N content))];
     can_create := fun _ => true;
     linesep := NL;
     room := None |}.

(** A working directory that holds [in.pdf] and nothing else. *)
Definition fresh : World :=
  {| files := {[ lit "in.pdf" := [Byte.x25; Byte.x50; Byte.x44; Byte.x46] ]};
     stdout := [];
     stderr := [];
     calls := [] |}.

(** An empty working directory. *)
Definition empty_dir : World :=
  {| files := ∅; stdout := []; stderr := []; calls := [] |}.

Definition argv_ok : list pystr :=
  [lit "pdf_to_text_temp.py"; lit "in.pdf"; lit "out.txt"].
Definition argv_one : list pystr :=
  [lit "pdf_to_text_temp.py"; lit "in.pdf"].
Definition argv_extra : list pystr :=
  [lit "pdf_to_text_temp.py"; lit "in.pdf"; lit "out.txt"; lit "--verbose"].
Definition argv_same : list pystr :=
  [lit "pdf_to_text_temp.py"; lit "in.pdf"; lit "in.pdf"].

(** The document of the specification's scenario. *)
Definition hello_world : list Page :=
  [Returns (Some (lit "Hello")); Returns (Some []); Returns (Some (lit "World"))].

(** The Output text the specification gives for it. *)
Definition hello_world_output : pystr :=
  lit "--- PAGE 1 ---" ++ NL ++ lit "Hello" ++ NL ++ NL ++
  lit "--- PAGE 2 ---" ++ NL ++ NL ++ NL ++
  lit "--- PAGE 3 ---" ++ NL ++ lit "World".

(** A document whose second page has no text. *)
Definition blank_second : list Page :=
  [Returns (Some (lit "a")); Returns None; Returns (Some (lit "b"))].

(** A document whose second page cannot be extracted. *)
Definition broken_second : list Page :=
  [Returns (Some (lit "a")); Raises (PdfReadError (lit "bad stream"));
   Returns (Some (lit "b"))].

(** A document of two pages, the first of which reads like a marker. *)
Definition marker_in_text : list Page :=
  [Returns (Some (lit "--- PAGE 9 ---")); Returns (Some (lit "x"))].

(** Its Output text. *)
Definition marker_in_text_output : pystr :=
  lit "--- PAGE 1 ---" ++ NL ++ lit "--- PAGE 9 ---" ++ NL ++ NL ++
  lit "--- PAGE 2 ---" ++ NL ++ lit "x".

(** A document whose only page extracts to an unpaired surrogate. *)
Definition lone_surrogate : list Page :=
  [Returns (Some [0xD800%N])].

End Scenario.

(** ** Vocabulary for further properties *)

(** [s.startswith(p)] *)
Fixpoint starts_with (p s : pystr) : bool :=
  match p, s with
  | [], _ => true
  | _ :: _, [] => false
  | a :: p', b :: s' => (a =? b)%N && starts_with p' s'
  end.

(** The number of positions of [s] at which [p] occurs. *)
Fixpoint occurrences (p s : pystr) : nat :=
  match s with
  | [] => 0
  | _ :: s' => (if starts_with p s then 1 else 0) + occurrences p s'
  end.

(** The occurrences of [p] in [s], first to last, each given as what [s]
    reads from there on. *)
Fixpoint occurrence_tails (p s : pystr) : list pystr :=
  match s with
  | [] => []
  | _ :: s' => (if starts_with p s then [s] else []) ++ occurrence_tails p s'
  end.

(** A page that returns [None], made to return the empty string. *)
Definition none_to_empty (page : Page) : Page :=
  match page with
  | Returns None => Returns (Some [])
  | _ => page
  end.

(** A text that UTF-8 can encode. *)
Definition encodable (s : pystr) : Prop := is_Some (utf8_encode s).

(** * Properties *)

(** ** Strings *)

Lemma py_or_default (r : option pystr) : py_or r [] = default [] r.
Proof. by destruct r as [[|c s]|]. Qed.

Example join_three :
  join (lit ", ") [lit "a"; lit "b"; lit "c"] = lit "a, b, c".
Proof. reflexivity. Qed.

Example join_one_and_none :
  join (NL ++ NL) [lit "a"] = lit "a" ∧ join (NL ++ NL) [] = [].
Proof. split; reflexivity. Qed.

Example str_of_int_digits :
  str_of_int 0 = lit "0" ∧ str_of_int 10 = lit "10" ∧ str_of_int 207 = lit "207".
Proof. repeat split; reflexivity. Qed.

Example py_or_falsy :
  py_or None (lit "d") = lit "d" ∧ py_or (Some []) (lit "d") = lit "d"
  ∧ py_or (Some (lit "x")) (lit "d") = lit "x".
Proof. repeat split; reflexivity. Qed.

Example section_string_twelve :
  section_string 12 (lit "text") = lit "--- PAGE 12 ---" ++ NL ++ lit "text".
Proof. reflexivity. Qed.

(** The euro sign, an emoji beyond the basic plane, and e with acute accent. *)
Example utf8_encode_samples :
  utf8_encode [0x20AC%N; 0x1F600%N; 0xE9%N] =
    Some [Byte.xe2; Byte.x82; Byte.xac; Byte.xf0; Byte.x9f; Byte.x98; Byte.x80;
          Byte.xc3; Byte.xa9]
  ∧ utf8_encode [0x41%N; 0xDC00%N] = None.
Proof. split; reflexivity. Qed.

Lemma section_string_marker idx text :
  section_string idx text = marker idx ++ text.
Proof. unfold section_string, marker. by rewrite <- !app_assoc. Qed.

Lemma translate_newlines_posix (s : pystr) : translate_newlines NL s = s.
Proof.
  induction s as [|c s IH]; [done|].
  cbn. fold (translate_newlines NL s). rewrite IH.
  destruct (N.eqb_spec c 10) as [->|]; done.
Qed.

(** ** UTF-8 *)

(** The code points without an encoding are the surrogates and what lies
    beyond U+10FFFF. *)
Lemma utf8_encode_cp_None (c : codepoint) :
  utf8_encode_cp c = None ↔
  (0xD800 ≤ c ∧ c ≤ 0xDFFF)%N ∨ (0x110000 ≤ c)%N.
Proof.
  unfold utf8_encode_cp.
  destruct (N.ltb_spec c 0x80); [split; [done|lia]|].
  destruct (N.ltb_spec c 0x800); [split; [done|lia]|].
  destruct (N.ltb_spec c 0x10000).
  - destruct (N.leb_spec 0xD800 c), (N.leb_spec c 0xDFFF); cbn [andb];
      split; try done; lia.
  - destruct (N.ltb_spec c 0x110000); split; try done; lia.
Qed.

Lemma utf8_encode_app (s t : pystr) :
  utf8_encode (s ++ t) =
  match utf8_encode s, utf8_encode t with
  | Some a, Some b => Some (a ++ b)
  | _, _ => None
  end.
Proof.
  induction s as [|c s IH]; cbn [app utf8_encode].
  - by destruct (utf8_encode t).
  - rewrite IH.
    destruct (utf8_encode_cp c), (utf8_encode s), (utf8_encode t); try done.
    by rewrite app_assoc.
Qed.

(** ASCII text is its own encoding, one octet for each character. *)
Lemma utf8_encode_ascii (s : pystr) :
  Forall (fun c => (c < 0x80)%N) s → utf8_encode s = Some (map octet s).
Proof.
  induction 1 as [|c s Hc _ IH]; [done|].
  cbn [utf8_encode map]. rewrite IH. unfold utf8_encode_cp.
  by destruct (N.ltb_spec c 0x80); [|lia].
Qed.

(** A text has an encoding unless one of its code points has none. *)
Lemma utf8_encode_None (s : pystr) :
  utf8_encode s = None ↔ ∃ c, c ∈ s ∧ utf8_encode_cp c = None.
Proof.
  induction s as [|c s IH]; cbn [utf8_encode].
  - split; [done|]. intros (c & Hc & _). by apply elem_of_nil in Hc.
  - destruct (utf8_encode_cp c) as [b|] eqn:Hcp.
    + destruct (utf8_encode s) as [bs|].
      * split; [done|]. intros (d & [->|Hd]%elem_of_cons & Hnone); [congruence|].
        assert (Some bs = None) as Hn; [|done].
        apply IH. by exists d.
      * split; [|done]. intros _.
        destruct (proj1 IH eq_refl) as (d & Hd & Hnone).
        exists d. split; [by apply list_elem_of_further|done].
    + split; [|done]. intros _. exists c. split; [by apply list_elem_of_here|done].
Qed.

(** ** The loop *)

Lemma length_sections_from idx texts :
  length (sections_from idx texts) = length texts.
Proof.
  revert idx. induction texts as [|t texts IH]; intros idx; cbn; [done|].
  by rewrite IH.
Qed.

Lemma sections_from_lookup idx texts i :
  sections_from idx texts !! i = section_string (idx + i) <$> texts !! i.
Proof.
  revert idx i. induction texts as [|t texts IH]; intros idx [|i]; cbn; try done.
  - by rewrite Nat.add_0_r.
  - rewrite IH. by replace (S idx + i) with (idx + S i) by lia.
Qed.

Lemma sections_from_app idx texts more :
  sections_from idx (texts ++ more) =
  sections_from idx texts ++ sections_from (idx + length texts) more.
Proof.
  revert idx. induction texts as [|t texts IH]; intros idx; cbn.
  - by rewrite Nat.add_0_r.
  - rewrite IH. by replace (S idx + length texts) with (idx + S (length texts)) by lia.
Qed.

(** The specification's Sections are the ones the loop builds. *)
Lemma sections_from_spec texts : sections_from 1 texts = spec_sections texts.
Proof.
  apply list_eq; intros i. unfold spec_sections.
  rewrite sections_from_lookup, list_lookup_fmap.
  destruct (decide (i < length texts)) as [Hi|Hi].
  - rewrite lookup_seq_lt by done. cbn.
    destruct (lookup_lt_is_Some_2 texts i Hi) as [t Ht].
    rewrite Ht. cbn. rewrite section_string_marker.
    replace (i - 0) with i by lia.
    by rewrite (nth_lookup_Some _ _ _ _ Ht).
  - rewrite lookup_seq_ge by lia.
    by rewrite lookup_ge_None_2 by lia.
Qed.

(** The loop either stops at the first page whose extraction raises, or
    returns the Sections of all pages after those it started with; it leaves
    the world as it is. *)
Lemma extract_pages_run idx pages sections w :
  extract_pages idx pages sections w =
  match first_raise pages with
  | Some e => (Err e, w)
  | None => (Ok (sections ++ sections_from idx (map page_text pages)), w)
  end.
Proof.
  revert idx sections.
  induction pages as [|[r|e] pages IH]; intros idx sections; cbn.
  - by rewrite app_nil_r.
  - unfold bind; cbn. rewrite IH.
    destruct (first_raise pages); [done|].
    by rewrite <- app_assoc.
  - done.
Qed.

Lemma first_raise_returns rs : first_raise (map Returns rs) = None.
Proof. induction rs; cbn; done. Qed.

Lemma page_text_returns rs :
  map page_text (map Returns rs) = map (default []) rs.
Proof.
  rewrite map_map. apply map_ext; intros r. cbn. apply py_or_default.
Qed.

(** ** The write *)

Lemma write_text_ok env target data w :
  write_succeeds env target data = true →
  ∃ octets,
    file_octets env data = Some octets ∧
    write_text env target data w =
      (Ok tt, set_files (<[locate env target := octets]> (files w))
                (log (CallWriteText target data) w)).
Proof.
  unfold write_succeeds, write_text, file_octets.
  destruct (can_create env target); [cbn [negb andb]|done].
  destruct (utf8_encode _) as [octets|]; [|done].
  destruct (room env) as [n|].
  - destruct (n <? length octets); cbn [negb]; [done|].
    intros _. by exists octets.
  - intros _. by exists octets.
Qed.

Lemma write_text_refused env target data w :
  can_create env target = false →
  write_text env target data w =
    (Err (OSError target), log (CallWriteText target data) w).
Proof. unfold write_text. by intros ->. Qed.

Lemma write_text_fails_late env target data w :
  can_create env target = true →
  write_succeeds env target data = false →
  ∃ e,
    write_text env target data w =
      (Err e, set_files (<[locate env target := leftover env data]> (files w))
                (log (CallWriteText target data) w)).
Proof.
  unfold write_succeeds, write_text, leftover, file_octets.
  intros ->; cbn [negb andb].
  destruct (utf8_encode _) as [octets|].
  - destruct (room env) as [n|]; [|done].
    destruct (n <? length octets); cbn [negb]; [|done].
    intros _. by eexists.
  - intros _. by eexists.
Qed.

(** What is left after a late failure is never the whole text: it is empty,
    or fewer octets than the text encodes to. *)
Lemma leftover_partial env target data :
  can_create env target = true →
  write_succeeds env target data = false →
  leftover env data = [] ∨
  ∃ octets n,
    file_octets env data = Some octets ∧ room env = Some n ∧
    n < length octets ∧ leftover env data = take n octets.
Proof.
  unfold write_succeeds, leftover.
  intros ->; cbn [negb andb].
  destruct (file_octets env data) as [octets|]; [|by left].
  destruct (room env) as [n|]; [|done].
  destruct (Nat.ltb_spec n (length octets)); cbn [negb]; [|done].
  intros _. right. by exists octets, n.
Qed.

(** ** The script, step by step *)

(** The run of the script on at least two arguments, spelled out: which call
    fails first decides the exception and the world that is left. *)
Lemma main_run env prog source target rest w :
  main env (prog :: source :: target :: rest) w =
  let w1 := log (CallPdfReader source) w in
  match files w !! locate env source with
  | None => (Err (FileNotFoundError source), w1)
  | Some content =>
      match pdf_parse env content with
      | Err e => (Err e, w1)
      | Ok pages =>
          match first_raise pages with
          | Some e => (Err e, w1)
          | None =>
              let data := output_text (map page_text pages) in
              match write_text env target data w1 with
              | (Ok _, w2) =>
                  (Ok tt,
                   put_stdout (completion_message env target (length pages) ++ NL) w2)
              | (Err e, w2) => (Err e, w2)
              end
          end
      end
  end.
Proof.
  unfold main, bind, PdfReader, argv_at; cbn.
  destruct (files w !! locate env source) as [content|]; [|done].
  destruct (pdf_parse env content) as [pages|e]; [|done].
  rewrite extract_pages_run.
  destruct (first_raise pages); done.
Qed.

(** The calls a run adds to the record. *)
Lemma write_text_calls env target data w :
  calls (write_text env target data w).2 = calls w ++ [CallWriteText target data].
Proof.
  unfold write_text.
  destruct (negb (can_create env target)); [done|].
  destruct (utf8_encode _) as [octets|]; [|done].
  destruct (room env) as [n|]; [|done].
  by destruct (n <? length octets).
Qed.

Lemma python_run env argv w :
  python env argv w =
  match main env argv w with
  | (Ok _, w') => (0, w')
  | (Err e, w') => (1, put_stderr (report e) w')
  end.
Proof. done. Qed.

(** ** Markers *)

Lemma lit_inj (s t : string) : lit s = lit t → s = t.
Proof.
  unfold lit. intros H.
  rewrite <- (String.string_of_list_ascii_of_string s).
  rewrite <- (String.string_of_list_ascii_of_string t).
  f_equal.
  revert H. generalize (String.list_ascii_of_string t).
  induction (String.list_ascii_of_string s) as [|a l IH]; intros [|b m] H;
    cbn in H; try done.
  injection H as Hab Hlm.
  rewrite <- (Ascii.ascii_N_embedding a), <- (Ascii.ascii_N_embedding b), Hab.
  f_equal. by apply IH.
Qed.

Lemma str_of_int_inj (n m : nat) : str_of_int n = str_of_int m → n = m.
Proof.
  unfold str_of_int. intros H%lit_inj.
  apply DecimalNat.Unsigned.to_uint_inj.
  assert (Some (Nat.to_uint n) = Some (Nat.to_uint m)) as [= ->]; [|done].
  by rewrite <- !NilEmpty.usu, H.
Qed.

(** Markers that read the same carry the same number. *)
Lemma marker_inj (i j : nat) : marker i = marker j → i = j.
Proof.
  unfold marker. intros H%app_inv_head.
  apply str_of_int_inj.
  assert (length (str_of_int i) = length (str_of_int j)) as Hlen.
  { apply (f_equal length) in H. rewrite !length_app in H. lia. }
  by apply (app_inj_1 _ _ _ _ Hlen) in H as [? _].
Qed.

(** ** The Output text *)

Lemma main_calls_returns env prog source target rest w content pages :
  files w !! locate env source = Some content →
  pdf_parse env content = Ok pages →
  first_raise pages = None →
  calls (python env (prog :: source :: target :: rest) w).2 =
    calls w ++ [CallPdfReader source;
                CallWriteText target (output_text (map page_text pages))].
Proof.
  intros Hfile Hparse Hraise.
  rewrite python_run, main_run, Hfile, Hparse, Hraise. cbn zeta.
  pose proof (write_text_calls env target (output_text (map page_text pages))
                (log (CallPdfReader source) w)) as Hcalls.
  destruct (write_text _ _ _ _) as [[[]|e] w2]; cbn in *;
    rewrite Hcalls; by rewrite <- app_assoc.
Qed.

(** A run whose document extracts without an exception and whose write
    succeeds: exit status and final world. *)
Lemma main_success env prog source target rest w content pages :
  files w !! locate env source = Some content →
  pdf_parse env content = Ok pages →
  first_raise pages = None →
  let data := output_text (map page_text pages) in
  write_succeeds env target data = true →
  ∃ octets,
    file_octets env data = Some octets ∧
    python env (prog :: source :: target :: rest) w =
      (0, put_stdout (completion_message env target (length pages) ++ NL)
            (set_files (<[locate env target := octets]> (files w))
               (log (CallWriteText target data)
                  (log (CallPdfReader source) w)))).
Proof.
  intros Hfile Hparse Hraise data Hwrite.
  destruct (write_text_ok env target data (log (CallPdfReader source) w) Hwrite)
    as (octets & Hoctets & Hrun).
  exists octets. split; [done|].
  rewrite python_run, main_run, Hfile, Hparse, Hraise. cbn zeta.
  fold data. by rewrite Hrun.
Qed.

(** C2. The three-page document whose pages extract to ["Hello"], [""] and
    ["World"] gives the Output text
    ["--- PAGE 1 ---\nHello\n\n--- PAGE 2 ---\n\n\n--- PAGE 3 ---\nWorld"];
    where that text can be written, the run writes it, prints
    ["Wrote <output-path> (3 pages)"] and exits with status 0. *)
Theorem hello_world_scenario env prog source target rest w content :
  files w !! locate env source = Some content →
  pdf_parse env content = Ok Scenario.hello_world →
  write_succeeds env target Scenario.hello_world_output = true →
  ∃ octets w',
    python env (prog :: source :: target :: rest) w = (0, w')
    ∧ calls w' =
        calls w ++ [CallPdfReader source;
                    CallWriteText target Scenario.hello_world_output]
    ∧ file_octets env Scenario.hello_world_output = Some octets
    ∧ files w' = <[locate env target := octets]> (files w)
    ∧ stdout w' =
        stdout w ++ lit "Wrote " ++ path_str env target ++ lit " (3 pages)" ++ NL.
Proof.
  intros Hfile Hparse Hwrite.
  destruct (main_success env prog source target rest w content
              Scenario.hello_world Hfile Hparse eq_refl Hwrite)
    as (octets & Hoctets & Hrun).
  exists octets. eexists. split; [exact Hrun|].
  split; [cbn; by rewrite <- app_assoc|].
  split; [exact Hoctets|].
  split; [done|].
  cbn. unfold completion_message. by rewrite <- !app_assoc.
Qed.

Lemma hello_world_scenario_witness :
  ∃ octets w',
    python (Scenario.posix (Ok Scenario.hello_world)) Scenario.argv_ok
      Scenario.fresh = (0, w')
    ∧ calls w' =
        [CallPdfReader (lit "in.pdf");
         CallWriteText (lit "out.txt") Scenario.hello_world_output]
    ∧ file_octets (Scenario.posix (Ok Scenario.hello_world))
        Scenario.hello_world_output = Some octets
    ∧ files w' = <[lit "out.txt" := octets]> (files Scenario.fresh)
    ∧ stdout w' = lit "Wrote out.txt (3 pages)" ++ NL.
Proof.
  refine (hello_world_scenario (Scenario.posix (Ok Scenario.hello_world))
            (lit "pdf_to_text_temp.py") (lit "in.pdf") (lit "out.txt") []
            Scenario.fresh [Byte.x25; Byte.x50; Byte.x44; Byte.x46] _ _ _).
  - vm_compute. reflexivity.
  - reflexivity.
  - vm_compute. reflexivity.
Defined.

(** ** Pages without text *)



(** ** Usage errors *)

(** C4. With fewer than two arguments after the program's name the run ends
    at once: the usage message
    ["Usage: python pdf_to_text_temp.py <input.pdf> <output.txt>"] goes to
    standard error, the exit status is 1, and no call on the file system has
    been made: the files, the record of calls and standard output are as they
    were. *)
Theorem usage_error_before_io env (argv : list pystr) w :
  length argv < 3 →
  python env argv w =
    (1, put_stderr
          (lit "Usage: python pdf_to_text_temp.py <input.pdf> <output.txt>" ++ NL)
          w)
  ∧ files (python env argv w).2 = files w
  ∧ calls (python env argv w).2 = calls w
  ∧ stdout (python env argv w).2 = stdout w
  ∧ (python env argv w).1 ≠ 0.
Proof.
  intros Hlen.
  assert (python env argv w = (1, put_stderr (usage ++ NL) w)) as Hrun.
  { unfold python, main.
    by destruct (Nat.ltb_spec (length argv) 3); [|lia]. }
  rewrite Hrun. done.
Qed.

Lemma usage_error_before_io_witness :
  python (Scenario.posix (Ok Scenario.hello_world)) Scenario.argv_one
    Scenario.fresh =
  (1, put_stderr
        (lit "Usage: python pdf_to_text_temp.py <input.pdf> <output.txt>" ++ NL)
        Scenario.fresh).
Proof.
  refine (proj1 (usage_error_before_io
                   (Scenario.posix (Ok Scenario.hello_world))
                   Scenario.argv_one Scenario.fresh _)).
  vm_compute. lia.
Defined.

(** ** Failed runs and the destination *)

(** The outcome of [write_text] and what it leaves at the destination depend
    on the platform and the text, not on the world it runs in: it is refused
    on opening the file, or it puts some content there. *)
Lemma write_text_uniform env target data :
  (∀ w, write_text env target data w =
          (Err (OSError target), log (CallWriteText target data) w))
  ∨ (∃ res content, ∀ w,
        write_text env target data w =
          (res, set_files (<[locate env target := content]> (files w))
                  (log (CallWriteText target data) w))).
Proof.
  unfold write_text.
  destruct (can_create env target); cbn [negb]; [right|by left].
  destruct (utf8_encode _) as [octets|]; [|by eexists _, _].
  destruct (room env) as [n|]; [|by eexists _, _].
  destruct (n <? length octets); by eexists _, _.
Qed.

(** C5, the claim as it stands, fails.  On a POSIX platform, in a directory
    that holds [in.pdf] and no [out.txt], a document whose page extracts to
    an unpaired surrogate makes the write fail after the destination was
    opened: the run ends with status 1, and [out.txt] now exists, empty. *)
Lemma failed_write_leaves_empty_file :
  (python (Scenario.posix (Ok Scenario.lone_surrogate)) Scenario.argv_ok
     Scenario.fresh).1 = 1
  ∧ files Scenario.fresh !! lit "out.txt" = None
  ∧ files (python (Scenario.posix (Ok Scenario.lone_surrogate)) Scenario.argv_ok
             Scenario.fresh).2 !! lit "out.txt" = Some []
  ∧ files (python (Scenario.posix (Ok Scenario.lone_surrogate)) Scenario.argv_ok
             Scenario.fresh).2 ≠ files Scenario.fresh.
Proof.
  split; [by vm_compute|]. split; [by vm_compute|].
  assert (files (python (Scenario.posix (Ok Scenario.lone_surrogate))
                   Scenario.argv_ok Scenario.fresh).2 !! lit "out.txt" = Some [])
    as Hleft by (by vm_compute).
  split; [exact Hleft|].
  intros Heq. rewrite Heq in Hleft. by vm_compute in Hleft.
Qed.

(** With the input missing, the run stops at [PdfReader] and creates nothing.
    With the input there, on a device that takes six more octets, the run
    leaves the first six octets of the Output text, ["--- PA"], in
    [out.txt]. *)
Example full_device_leaves_prefix :
  python (Scenario.nearly_full (Ok Scenario.hello_world)) Scenario.argv_ok
    Scenario.empty_dir =
  (1, put_stderr (report (FileNotFoundError (lit "in.pdf")))
        (log (CallPdfReader (lit "in.pdf")) Scenario.empty_dir))
  ∧ (python (Scenario.nearly_full (Ok Scenario.hello_world)) Scenario.argv_ok
       Scenario.fresh).1 = 1
  ∧ files (python (Scenario.nearly_full (Ok Scenario.hello_world))
             Scenario.argv_ok Scenario.fresh).2 !! lit "out.txt" =
      Some [Byte.x2d; Byte.x2d; Byte.x2d; Byte.x20; Byte.x50; Byte.x41].
Proof. split; [by vm_compute|]. split; by vm_compute. Qed.

(** C5, amended.  A run that fails before the write leaves every file as it
    was and has made no write call: that is so when opening the source fails
    and when the extraction of a page raises.  Otherwise the whole Output
    text is built first and handed to one [write_text] call, the only write
    of the run.  When that call is refused on opening the destination, every
    file is as it was; when it fails later, the destination is left with less
    than the text: nothing, or the octets the device still took. *)
Theorem failed_run_file_effects env prog source target rest w :
  let argv := prog :: source :: target :: rest in
  let w' := (python env argv w).2 in
  (∀ e w1,
     PdfReader env source w = (Err e, w1) →
     files w' = files w ∧ calls w' = calls w ++ [CallPdfReader source])
  ∧ (∀ pages w1 e w2,
       PdfReader env source w = (Ok pages, w1) →
       extract_pages 1 pages [] w1 = (Err e, w2) →
       files w' = files w ∧ calls w' = calls w ++ [CallPdfReader source])
  ∧ (∀ pages w1 sections w2,
       PdfReader env source w = (Ok pages, w1) →
       extract_pages 1 pages [] w1 = (Ok sections, w2) →
       let data := join (NL ++ NL) sections in
       length sections = length pages
       ∧ calls w' =
           calls w ++ [CallPdfReader source; CallWriteText target data]
       ∧ (can_create env target = false →
            (python env argv w).1 = 1 ∧ files w' = files w)
       ∧ (can_create env target = true →
          write_succeeds env target data = false →
            (python env argv w).1 = 1
            ∧ files w' = <[locate env target := leftover env data]> (files w)
            ∧ (leftover env data = [] ∨
               ∃ octets n,
                 file_octets env data = Some octets ∧ room env = Some n ∧
                 n < length octets ∧ leftover env data = take n octets))).
Proof.
  intros argv w'. subst w' argv.
  rewrite python_run, main_run. unfold PdfReader. cbn zeta.
  replace (files (log (CallPdfReader source) w)) with (files w) by done.
  destruct (files w !! locate env source) as [content|]; cycle 1.
  { split; [|split]; [|intros; simplify_eq..].
    intros e w1 [= <- <-]. done. }
  destruct (pdf_parse env content) as [pages|e0]; cycle 1.
  { split; [|split]; [|intros; simplify_eq..].
    intros e w1 [= <- <-]. done. }
  split; [intros; simplify_eq|].
  split.
  - intros pages' w1 e w2 [= <- <-]. rewrite extract_pages_run.
    destruct (first_raise pages); [|intros; simplify_eq].
    done.
  - intros pages' w1 sections w2 [= <- <-]. rewrite extract_pages_run.
    destruct (first_raise pages); [intros; simplify_eq|].
    intros [= <- <-]. cbn [app].
    split; [by rewrite length_sections_from, length_map|].
    fold (output_text (map page_text pages)).
    set (data := output_text (map page_text pages)).
    set (w1 := log (CallPdfReader source) w).
    pose proof (write_text_calls env target data w1) as Hcalls.
    split; [|split].
    + destruct (write_text env target data w1) as [[[]|e] w2]; cbn in *;
        rewrite Hcalls; by rewrite <- app_assoc.
    + intros Hno. by rewrite (write_text_refused _ _ _ _ Hno).
    + intros Hcan Hfail.
      destruct (write_text_fails_late _ _ _ w1 Hcan Hfail) as [e ->].
      split; [done|]. split; [done|].
      by apply (leftover_partial env target).
Qed.

Lemma failed_run_file_effects_witness :
  (python (Scenario.read_only (Ok Scenario.hello_world)) Scenario.argv_ok
     Scenario.fresh).1 = 1
  ∧ files (python (Scenario.read_only (Ok Scenario.hello_world)) Scenario.argv_ok
             Scenario.fresh).2 = files Scenario.fresh.
Proof.
  pose proof (failed_run_file_effects
                (Scenario.read_only (Ok Scenario.hello_world))
                (lit "pdf_to_text_temp.py") (lit "in.pdf") (lit "out.txt") []
                Scenario.fresh) as (_ & _ & Hwrite).
  refine (proj1 (proj2 (proj2
            (Hwrite Scenario.hello_world
               (log (CallPdfReader (lit "in.pdf")) Scenario.fresh)
               (sections_from 1 (map page_text Scenario.hello_world))
               (log (CallPdfReader (lit "in.pdf")) Scenario.fresh) _ _))) _).
  - vm_compute. reflexivity.
  - vm_compute. reflexivity.
  - reflexivity.
Defined.

(** ** Successful runs *)

Lemma argv_at_least_two (argv : list pystr) :
  3 ≤ length argv →
  ∃ prog rest, argv = prog :: argv_at argv 1 :: argv_at argv 2 :: rest.
Proof.
  destruct argv as [|prog [|source [|target rest]]]; cbn; try lia.
  intros _. by exists prog, rest.
Qed.

(** A run that exits with status 0 read a document, extracted every page,
    wrote the Output text and printed the completion message. *)
Lemma python_success env (argv : list pystr) w w' :
  python env argv w = (0, w') →
  let source := argv_at argv 1 in
  let target := argv_at argv 2 in
  ∃ content pages octets,
    files w !! locate env source = Some content
    ∧ pdf_parse env content = Ok pages
    ∧ first_raise pages = None
    ∧ file_octets env (output_text (map page_text pages)) = Some octets
    ∧ w' =
        put_stdout (completion_message env target (length pages) ++ NL)
          (set_files (<[locate env target := octets]> (files w))
             (log (CallWriteText target (output_text (map page_text pages)))
                (log (CallPdfReader source) w))).
Proof.
  intros Hrun source target.
  destruct (decide (3 ≤ length argv)) as [Hlen|Hlen]; cycle 1.
  { unfold python, main in Hrun.
    by destruct (Nat.ltb_spec (length argv) 3); [|lia]. }
  destruct (argv_at_least_two argv Hlen) as (prog & rest & Hargv).
  fold source target in Hargv. rewrite Hargv in Hrun.
  rewrite python_run, main_run in Hrun. cbn zeta in Hrun.
  destruct (files w !! locate env source) as [content|] eqn:Hfile; [|done].
  destruct (pdf_parse env content) as [pages|] eqn:Hparse; [|done].
  destruct (first_raise pages) eqn:Hraise; [done|].
  exists content, pages.
  set (data := output_text (map page_text pages)) in *.
  set (w1 := log (CallPdfReader source) w) in *.
  destruct (write_succeeds env target data) eqn:Hwrite.
  - destruct (write_text_ok env target data w1 Hwrite) as (octets & Hoct & Hw).
    rewrite Hw in Hrun. exists octets. injection Hrun as <-.
    repeat split; assumption || reflexivity.
  - destruct (can_create env target) eqn:Hcan.
    + destruct (write_text_fails_late env target data w1 Hcan Hwrite) as [e He].
      by rewrite He in Hrun.
    + by rewrite (write_text_refused env target data w1 Hcan) in Hrun.
Qed.

(** C6. A run that succeeds has written the Output text to the destination,
    whose content is now exactly the octets of that text whether or not the
    file was there before, and has printed
    ["Wrote {output-path} ({page-count} pages)"] and a line end to standard
    output, the page count being the number of pages of the document. *)
Theorem success_writes_and_reports env (argv : list pystr) w w' :
  python env argv w = (0, w') →
  let source := argv_at argv 1 in
  let target := argv_at argv 2 in
  ∃ content pages octets,
    files w !! locate env source = Some content
    ∧ pdf_parse env content = Ok pages
    ∧ calls w' =
        calls w ++ [CallPdfReader source;
                    CallWriteText target (output_text (map page_text pages))]
    ∧ file_octets env (output_text (map page_text pages)) = Some octets
    ∧ files w' = <[locate env target := octets]> (files w)
    ∧ files w' !! locate env target = Some octets
    ∧ stdout w' =
        stdout w ++ lit "Wrote " ++ path_str env target ++ lit " ("
          ++ str_of_int (length pages) ++ lit " pages)" ++ NL.
Proof.
  intros Hrun source target.
  destruct (python_success env argv w w' Hrun)
    as (content & pages & octets & Hfile & Hparse & _ & Hoct & ->).
  exists content, pages, octets. fold source target.
  split; [done|]. split; [done|].
  split; [cbn; by rewrite <- app_assoc|].
  split; [done|]. split; [done|].
  split; [apply (lookup_insert_eq (files w))|].
  unfold put_stdout, set_files, log, completion_message. cbn [stdout].
  by rewrite <- !app_assoc.
Qed.

Lemma success_writes_and_reports_witness :
  ∃ content pages octets,
    files Scenario.fresh !! lit "in.pdf" = Some content
    ∧ pdf_parse (Scenario.posix (Ok Scenario.blank_second)) content = Ok pages
    ∧ calls (python (Scenario.posix (Ok Scenario.blank_second)) Scenario.argv_ok
               Scenario.fresh).2 =
        [CallPdfReader (lit "in.pdf");
         CallWriteText (lit "out.txt") (output_text (map page_text pages))]
    ∧ file_octets (Scenario.posix (Ok Scenario.blank_second))
        (output_text (map page_text pages)) = Some octets
    ∧ files (python (Scenario.posix (Ok Scenario.blank_second)) Scenario.argv_ok
               Scenario.fresh).2 = <[lit "out.txt" := octets]> (files Scenario.fresh)
    ∧ files (python (Scenario.posix (Ok Scenario.blank_second)) Scenario.argv_ok
               Scenario.fresh).2 !! lit "out.txt" = Some octets
    ∧ stdout (python (Scenario.posix (Ok Scenario.blank_second)) Scenario.argv_ok
                Scenario.fresh).2 =
        lit "Wrote " ++ lit "out.txt" ++ lit " ("
          ++ str_of_int (length pages) ++ lit " pages)" ++ NL.
Proof.
  refine (success_writes_and_reports
            (Scenario.posix (Ok Scenario.blank_second)) Scenario.argv_ok
            Scenario.fresh _ _).
  vm_compute. reflexivity.
Defined.

(** ** Running twice *)

(** C7, the claim as it stands, fails when both paths name one file.  With a
    document library that reads any file as a one-page document, the first
    run replaces [in.pdf] by its Output text, the second run reads that text
    as its document, and [in.pdf] differs after the two runs although both
    succeed. *)
Lemma same_file_runs_differ :
  (python Scenario.lenient Scenario.argv_same Scenario.fresh).1 = 0
  ∧ (python Scenario.lenient Scenario.argv_same
       (python Scenario.lenient Scenario.argv_same Scenario.fresh).2).1 = 0
  ∧ files (python Scenario.lenient Scenario.argv_same
             (python Scenario.lenient Scenario.argv_same Scenario.fresh).2).2
      !! lit "in.pdf"
    ≠ files (python Scenario.lenient Scenario.argv_same Scenario.fresh).2
        !! lit "in.pdf".
Proof. split; [by vm_compute|]. split; by vm_compute. Qed.

(** C7, amended.  When the two paths name different files, a second run with
    the same arguments, started where the first one ended, leaves every file,
    the output file among them, with the octets the first run left. *)
Theorem second_run_same_files env prog source target rest w :
  locate env source ≠ locate env target →
  let argv := prog :: source :: target :: rest in
  let first := python env argv w in
  let second := python env argv first.2 in
  files second.2 = files first.2
  ∧ files second.2 !! locate env target = files first.2 !! locate env target.
Proof.
  intros Hdiff argv first second.
  enough (files second.2 = files first.2 ∧ second.1 = first.1) as [Hf _].
  { by rewrite Hf. }
  subst second first argv.
  rewrite (python_run env _ w), main_run. cbn zeta.
  destruct (files w !! locate env source) as [content|] eqn:Hfile; cycle 1.
  { rewrite python_run, main_run. cbn [snd files put_stderr log].
    by rewrite Hfile. }
  destruct (pdf_parse env content) as [pages|e] eqn:Hparse; cycle 1.
  { rewrite python_run, main_run. cbn [snd files put_stderr log].
    by rewrite Hfile, Hparse. }
  destruct (first_raise pages) as [e|] eqn:Hraise.
  { rewrite python_run, main_run. cbn [snd files put_stderr log].
    by rewrite Hfile, Hparse, Hraise. }
  set (data := output_text (map page_text pages)).
  destruct (write_text_uniform env target data)
    as [Hrefused|(res & left & Hput)].
  - rewrite Hrefused.
    rewrite python_run, main_run. cbn [snd files put_stderr log].
    rewrite Hfile, Hparse, Hraise. cbn zeta. fold data.
    by rewrite Hrefused.
  - rewrite Hput.
    assert (∀ v : World,
              files v = <[locate env target := left]> (files w) →
              files (python env (prog :: source :: target :: rest) v).2 = files v
              ∧ (python env (prog :: source :: target :: rest) v).1 =
                  match res with Ok _ => 0 | Err _ => 1 end) as Hagain.
    { intros v Hv. rewrite python_run, main_run. cbn zeta.
      rewrite Hv, lookup_insert_ne, Hfile, Hparse, Hraise by done.
      fold data. rewrite Hput.
      replace (files (log (CallPdfReader source) v)) with (files v) by done.
      rewrite Hv, insert_insert_eq.
      by destruct res as [[]|e]. }
    destruct res as [[]|e]; by apply Hagain.
Qed.

Lemma second_run_same_files_witness :
  files (python (Scenario.posix (Ok Scenario.hello_world)) Scenario.argv_ok
           (python (Scenario.posix (Ok Scenario.hello_world)) Scenario.argv_ok
              Scenario.fresh).2).2 !! lit "out.txt"
  = files (python (Scenario.posix (Ok Scenario.hello_world)) Scenario.argv_ok
             Scenario.fresh).2 !! lit "out.txt".
Proof.
  refine (proj2 (second_run_same_files
                   (Scenario.posix (Ok Scenario.hello_world))
                   (lit "pdf_to_text_temp.py") (lit "in.pdf")
                   (lit "out.txt") [] Scenario.fresh _)).
  vm_compute. discriminate.
Defined.

(** ** Exceptions and the exit status *)

(** C8. Nothing the script calls is guarded: an exception raised by
    [PdfReader], by the extraction of a page or by [write_text] is the
    exception that reaches the interpreter, in the world the failing call
    left; the interpreter reports it on standard error and the exit status is
    1, with nothing printed to standard output.  When the three steps all
    return, the run prints its message and exits with status 0. *)
Theorem failures_reach_the_process_boundary env prog source target rest w :
  let argv := prog :: source :: target :: rest in
  (∀ e w1,
     PdfReader env source w = (Err e, w1) →
     main env argv w = (Err e, w1)
     ∧ python env argv w = (1, put_stderr (report e) w1)
     ∧ stdout (python env argv w).2 = stdout w)
  ∧ (∀ pages w1 e w2,
       PdfReader env source w = (Ok pages, w1) →
       extract_pages 1 pages [] w1 = (Err e, w2) →
       main env argv w = (Err e, w2)
       ∧ python env argv w = (1, put_stderr (report e) w2)
       ∧ stdout (python env argv w).2 = stdout w)
  ∧ (∀ pages w1 sections w2 e w3,
       PdfReader env source w = (Ok pages, w1) →
       extract_pages 1 pages [] w1 = (Ok sections, w2) →
       write_text env target (join (NL ++ NL) sections) w2 = (Err e, w3) →
       main env argv w = (Err e, w3)
       ∧ python env argv w = (1, put_stderr (report e) w3)
       ∧ stdout (python env argv w).2 = stdout w)
  ∧ (∀ pages w1 sections w2 w3,
       PdfReader env source w = (Ok pages, w1) →
       extract_pages 1 pages [] w1 = (Ok sections, w2) →
       write_text env target (join (NL ++ NL) sections) w2 = (Ok tt, w3) →
       python env argv w =
         (0, put_stdout (completion_message env target (length pages) ++ NL) w3))
  ∧ ((python env argv w).1 = 0 ∨ (python env argv w).1 = 1).
Proof.
  intros argv. subst argv.
  assert (∀ (e : Exception) (v : World),
            main env (prog :: source :: target :: rest) w = (Err e, v) →
            stdout v = stdout w →
            main env (prog :: source :: target :: rest) w = (Err e, v)
            ∧ python env (prog :: source :: target :: rest) w =
                (1, put_stderr (report e) v)
            ∧ stdout (python env (prog :: source :: target :: rest) w).2 =
                stdout w) as Hboundary.
  { intros e v Hrun Hout. rewrite python_run, Hrun. done. }
  assert (∀ data v r v', write_text env target data v = (r, v') →
                         stdout v' = stdout v) as Hwrite_out.
  { intros data v r v'. unfold write_text.
    destruct (negb (can_create env target)); [by intros [= <- <-]|].
    destruct (utf8_encode _) as [octets|]; [|by intros [= <- <-]].
    destruct (room env) as [n|]; [|by intros [= <- <-]].
    destruct (n <? length octets); by intros [= <- <-]. }
  assert (∀ pages v, PdfReader env source w = (Ok pages, v) →
                     stdout v = stdout w) as Hread_out.
  { intros pages v. unfold PdfReader. cbn zeta.
    destruct (files _ !! _); [|done].
    by intros [= _ <-]. }
  assert (∀ idx pages acc v r v', extract_pages idx pages acc v = (r, v') →
                                  v' = v) as Hloop.
  { intros idx pages acc v r v'. rewrite extract_pages_run.
    destruct (first_raise pages); by intros [= _ <-]. }
  assert (main env (prog :: source :: target :: rest) w =
          (pages <-- PdfReader env source ;;
           sections <-- extract_pages 1 pages [] ;;
           _ <-- write_text env target (join (NL ++ NL) sections) ;;
           print (completion_message env target (length pages))) w)
    as Hmain by done.
  split; [|split; [|split; [|split]]].
  - intros e w1 Hread. apply Hboundary.
    + rewrite Hmain. unfold bind. by rewrite Hread.
    + revert Hread. unfold PdfReader. cbn zeta.
      destruct (files _ !! _); by intros [= _ <-].
  - intros pages w1 e w2 Hread Hextract. apply Hboundary.
    + rewrite Hmain. unfold bind. by rewrite Hread, Hextract.
    + rewrite (Hloop _ _ _ _ _ _ Hextract). by eapply Hread_out.
  - intros pages w1 sections w2 e w3 Hread Hextract Hwrite. apply Hboundary.
    + rewrite Hmain. unfold bind. by rewrite Hread, Hextract, Hwrite.
    + rewrite (Hwrite_out _ _ _ _ Hwrite), (Hloop _ _ _ _ _ _ Hextract).
      by eapply Hread_out.
  - intros pages w1 sections w2 w3 Hread Hextract Hwrite.
    unfold python. rewrite Hmain. unfold bind.
    by rewrite Hread, Hextract, Hwrite.
  - unfold python. rewrite Hmain. unfold bind.
    destruct (PdfReader env source w) as [[pages|e] w1]; [|by right].
    destruct (extract_pages 1 pages [] w1) as [[sections|e] w2]; [|by right].
    destruct (write_text env target _ w2) as [[[]|e] w3]; [by left|by right].
Qed.

Lemma failures_reach_the_process_boundary_witness :
  python (Scenario.posix (Ok Scenario.broken_second)) Scenario.argv_ok
    Scenario.fresh =
  (1, put_stderr (report (PdfReadError (lit "bad stream")))
        (log (CallPdfReader (lit "in.pdf")) Scenario.fresh)).
Proof.
  pose proof (failures_reach_the_process_boundary
                (Scenario.posix (Ok Scenario.broken_second))
                (lit "pdf_to_text_temp.py") (lit "in.pdf") (lit "out.txt") []
                Scenario.fresh) as (_ & Hextract & _).
  refine (proj1 (proj2
            (Hextract Scenario.broken_second
               (log (CallPdfReader (lit "in.pdf")) Scenario.fresh)
               (PdfReadError (lit "bad stream"))
               (log (CallPdfReader (lit "in.pdf")) Scenario.fresh) _ _))).
  - vm_compute. reflexivity.
  - vm_compute. reflexivity.
Defined.

(** ** The octets in the file *)

(** C9, the claim as it stands, fails where the line separator is not
    ["\n"].  On Windows the run on the three-page scenario succeeds, the
    Output text handed to [write_text] is the one of the specification, and
    the octets in [out.txt] are not its UTF-8 encoding: every line feed went
    out as carriage return and line feed. *)
Lemma windows_octets_are_not_the_encoding :
  (python (Scenario.windows (Ok Scenario.hello_world)) Scenario.argv_ok
     Scenario.fresh).1 = 0
  ∧ calls (python (Scenario.windows (Ok Scenario.hello_world)) Scenario.argv_ok
             Scenario.fresh).2 =
      [CallPdfReader (lit "in.pdf");
       CallWriteText (lit "out.txt") Scenario.hello_world_output]
  ∧ files (python (Scenario.windows (Ok Scenario.hello_world)) Scenario.argv_ok
             Scenario.fresh).2 !! lit "out.txt"
    ≠ utf8_encode Scenario.hello_world_output
  ∧ files (python (Scenario.windows (Ok Scenario.hello_world)) Scenario.argv_ok
             Scenario.fresh).2 !! lit "out.txt"
    = utf8_encode
        (lit "--- PAGE 1 ---" ++ Scenario.CRLF ++ lit "Hello"
           ++ Scenario.CRLF ++ Scenario.CRLF ++
         lit "--- PAGE 2 ---" ++ Scenario.CRLF
           ++ Scenario.CRLF ++ Scenario.CRLF ++
         lit "--- PAGE 3 ---" ++ Scenario.CRLF ++ lit "World").
Proof.
  split; [by vm_compute|]. split; [by vm_compute|]. split; by vm_compute.
Qed.

(** C9, amended.  After a run that succeeds, the octets in the destination
    file are exactly the UTF-8 encoding of the Output text in which every
    ["\n"] has been replaced by the platform's line separator; where that
    separator is ["\n"], they are the UTF-8 encoding of the Output text
    itself. *)
Theorem written_octets_encode_the_output env (argv : list pystr) w w' :
  python env argv w = (0, w') →
  ∃ data octets,
    last (calls w') = Some (CallWriteText (argv_at argv 2) data)
    ∧ files w' !! locate env (argv_at argv 2) = Some octets
    ∧ utf8_encode (translate_newlines (linesep env) data) = Some octets
    ∧ (linesep env = NL → utf8_encode data = Some octets).
Proof.
  intros Hrun.
  destruct (python_success env argv w w' Hrun)
    as (content & pages & octets & _ & _ & _ & Hoct & ->).
  exists (output_text (map page_text pages)), octets.
  split; [|split; [|split]].
  - cbn. by rewrite !last_snoc.
  - apply (lookup_insert_eq (files w)).
  - exact Hoct.
  - intros Hposix. unfold file_octets in Hoct.
    by rewrite Hposix, translate_newlines_posix in Hoct.
Qed.

Lemma written_octets_encode_the_output_witness :
  ∃ data octets,
    last (calls (python (Scenario.windows (Ok Scenario.hello_world))
                   Scenario.argv_ok Scenario.fresh).2) =
      Some (CallWriteText (lit "out.txt") data)
    ∧ files (python (Scenario.windows (Ok Scenario.hello_world))
               Scenario.argv_ok Scenario.fresh).2 !! lit "out.txt" = Some octets
    ∧ utf8_encode (translate_newlines Scenario.CRLF data) = Some octets
    ∧ (Scenario.CRLF = NL → utf8_encode data = Some octets).
Proof.
  refine (written_octets_encode_the_output
            (Scenario.windows (Ok Scenario.hello_world)) Scenario.argv_ok
            Scenario.fresh _ _).
  vm_compute. reflexivity.
Defined.

(** ** More arguments than two *)

(** C10. Arguments after the first two do not make the run fail and change
    nothing: the run on a longer argument list is the run on its first three
    entries, the program's name and the two paths.  Only [argv[1]] and
    [argv[2]] are read: lists that agree there give the same run. *)
Theorem extra_arguments_are_ignored env (argv : list pystr) w :
  3 < length argv →
  main env argv w = main env (take 3 argv) w
  ∧ python env argv w = python env (take 3 argv) w
  ∧ (∀ argv' : list pystr,
       3 ≤ length argv' →
       argv_at argv' 1 = argv_at argv 1 →
       argv_at argv' 2 = argv_at argv 2 →
       python env argv' w = python env argv w).
Proof.
  intros Hlen.
  destruct (argv_at_least_two argv ltac:(lia)) as (prog & rest & Hargv).
  assert (main env argv w = main env (take 3 argv) w) as Hmain.
  { rewrite Hargv. done. }
  split; [done|]. split; [by rewrite !python_run, Hmain|].
  intros argv' Hlen' H1 H2.
  destruct (argv_at_least_two argv' Hlen') as (prog' & rest' & Hargv').
  rewrite Hargv', Hargv, H1, H2.
  rewrite !python_run. done.
Qed.

Lemma extra_arguments_are_ignored_witness :
  python (Scenario.posix (Ok Scenario.hello_world)) Scenario.argv_extra
    Scenario.fresh =
  python (Scenario.posix (Ok Scenario.hello_world)) Scenario.argv_ok
    Scenario.fresh.
Proof.
  refine (proj1 (proj2 (extra_arguments_are_ignored
                          (Scenario.posix (Ok Scenario.hello_world))
                          Scenario.argv_extra Scenario.fresh _))).
  vm_compute. lia.
Defined.

(** * Further properties of the script *)

(** ** Numbers and Sections *)

(** [str(n)] holds decimal digits only. *)
Lemma str_of_int_is_digits (n : nat) :
  Forall (fun c => (48 ≤ c ∧ c ≤ 57)%N) (str_of_int n).
Proof.
  unfold str_of_int. generalize (Nat.to_uint n).
  induction u as [|u IH|u IH|u IH|u IH|u IH|u IH|u IH|u IH|u IH|u IH];
    [by constructor|..];
    (apply Forall_cons; split; [cbn; lia|exact IH]).
Qed.

(** Two texts that agree up to the first occurrence of a character agree
    before and after it. *)
Lemma split_at_first (x : codepoint) (a b r r' : pystr) :
  Forall (fun c => c ≠ x) a → Forall (fun c => c ≠ x) b →
  a ++ x :: r = b ++ x :: r' → a = b ∧ r = r'.
Proof.
  intros Ha. revert b. induction Ha as [|c a Hc _ IH]; intros b Hb Heq.
  - destruct Hb as [|d b Hd _]; cbn in Heq.
    + injection Heq as Hr. by split.
    + injection Heq as Hd' _. by symmetry in Hd'.
  - destruct Hb as [|d b Hd Hb]; cbn in Heq.
    + by injection Heq as Hc' _.
    + injection Heq as Hcd Heq.
      destruct (IH b Hb Heq) as [Hab Hr]. split; congruence.
Qed.

(** X6. A Section determines its page number and its text: Sections that
    read the same were built from the same number and the same text. *)
Theorem section_string_inj (i j : nat) (t u : pystr) :
  section_string i t = section_string j u → i = j ∧ t = u.
Proof.
  unfold section_string. intros H%app_inv_head.
  assert (∀ n, Forall (fun c : codepoint => c ≠ 32%N) (str_of_int n)) as Hdigits.
  { intros n. eapply Forall_impl; [apply str_of_int_is_digits|].
    cbn. intros c Hc. lia. }
  change (lit " ---" ++ NL ++ t) with (32%N :: lit "---" ++ NL ++ t) in H.
  change (lit " ---" ++ NL ++ u) with (32%N :: lit "---" ++ NL ++ u) in H.
  destruct (split_at_first _ _ _ _ _ (Hdigits i) (Hdigits j) H) as [Hn Hrest].
  split; [by apply str_of_int_inj|].
  apply app_inv_head in Hrest. by apply app_inv_head in Hrest.
Qed.

Lemma section_string_inj_witness :
  12 = 12 ∧ lit "text" = lit "text".
Proof.
  refine (section_string_inj 12 12 (lit "text") (lit "text") _).
  reflexivity.
Defined.

(** ** The loop, piece by piece *)

Lemma first_raise_app (pages more : list Page) :
  first_raise (pages ++ more) =
  match first_raise pages with
  | Some e => Some e
  | None => first_raise more
  end.
Proof. induction pages as [|[r|e] pages IH]; cbn; done. Qed.

(** X7. Extracting a document made of two runs of pages is extracting the
    first run and then, unless that raised, the second run with the numbering
    and the Sections carried on. *)
Theorem extract_pages_app (idx : nat) (pages more : list Page)
    (sections : list pystr) (w : World) :
  extract_pages idx (pages ++ more) sections w =
  (built <-- extract_pages idx pages sections ;;
   extract_pages (idx + length pages) more built) w.
Proof.
  unfold bind. rewrite !extract_pages_run, first_raise_app.
  destruct (first_raise pages); [done|].
  rewrite extract_pages_run.
  destruct (first_raise more); [done|].
  by rewrite map_app, sections_from_app, length_map, app_assoc.
Qed.

(** X5. The script cannot tell a page without text from a page with empty
    text: making every page that returns [None] return [""] changes neither
    the Sections nor the exception of the loop. *)
Theorem none_and_empty_text_alike (idx : nat) (pages : list Page)
    (sections : list pystr) (w : World) :
  extract_pages idx (map none_to_empty pages) sections w =
  extract_pages idx pages sections w.
Proof.
  revert idx sections.
  induction pages as [|[[r|]|e] pages IH]; intros idx sections; cbn.
  - done.
  - unfold bind; cbn. apply IH.
  - unfold bind; cbn. apply IH.
  - done.
Qed.

(** ** Markers in the Output text *)

Lemma starts_with_before_break (p a b : pystr) (x : codepoint) :
  Forall (fun c => c ≠ x) p →
  starts_with p (a ++ x :: b) = starts_with p a.
Proof.
  intros Hp. revert a. induction Hp as [|c p Hc _ IH]; intros a; [done|].
  destruct a as [|d a]; cbn.
  - by destruct (N.eqb_spec c x).
  - by rewrite IH.
Qed.

(** An occurrence of a text never runs over a character the text does not
    hold. *)
Lemma occurrences_break (p a b : pystr) (x : codepoint) :
  p ≠ [] → Forall (fun c => c ≠ x) p →
  occurrences p (a ++ x :: b) = occurrences p a + occurrences p b.
Proof.
  intros Hne Hp. induction a as [|d a IH].
  - cbn [app occurrences].
    rewrite <- (app_nil_l (x :: b)), starts_with_before_break by done.
    by destruct p.
  - change ((d :: a) ++ x :: b) with (d :: (a ++ x :: b)).
    cbn [occurrences].
    change (d :: (a ++ x :: b)) with ((d :: a) ++ x :: b).
    rewrite starts_with_before_break, IH by done. lia.
Qed.

Lemma occurrences_skip (c0 : codepoint) (p s t : pystr) :
  Forall (fun c => c ≠ c0) s →
  occurrences (c0 :: p) (s ++ t) = occurrences (c0 :: p) t.
Proof.
  induction 1 as [|c s Hc _ IH]; [done|].
  cbn [app occurrences starts_with]. rewrite IH.
  by destruct (N.eqb_spec c0 c) as [->|].
Qed.

(** A Section holds its own marker, and whatever markers its text holds. *)
Lemma occurrences_section (idx : nat) (t : pystr) :
  occurrences (lit "--- PAGE ") (section_string idx t) =
  1 + occurrences (lit "--- PAGE ") t.
Proof.
  unfold section_string.
  assert (∀ s, occurrences (lit "--- PAGE ") (lit "--- PAGE " ++ s) =
               1 + occurrences (lit "--- PAGE ") s) as Hown by done.
  rewrite Hown. f_equal.
  change (lit "--- PAGE ") with (45%N :: lit "-- PAGE ").
  rewrite occurrences_skip; cycle 1.
  { eapply Forall_impl; [apply str_of_int_is_digits|]. cbn. intros c Hc. lia. }
  change (lit " ---" ++ NL ++ t) with (lit " ---" ++ 10%N :: t).
  rewrite occurrences_break; [done|done|].
  by repeat (apply Forall_cons; split; [done|]).
Qed.

Lemma join_cons (sep s : pystr) (rest : list pystr) :
  rest ≠ [] → join sep (s :: rest) = s ++ sep ++ join sep rest.
Proof. by destruct rest. Qed.

Lemma sections_from_nil (idx : nat) (texts : list pystr) :
  sections_from idx texts = [] ↔ texts = [].
Proof. by destruct texts. Qed.

Lemma occurrences_sections (idx : nat) (texts : list pystr) :
  occurrences (lit "--- PAGE ") (join (NL ++ NL) (sections_from idx texts)) =
  length texts + sum_list (map (occurrences (lit "--- PAGE ")) texts).
Proof.
  revert idx. induction texts as [|t texts IH]; intros idx; [done|].
  cbn [sections_from length map sum_list].
  destruct (decide (texts = [])) as [->|Hmore].
  - cbn [sections_from join]. rewrite occurrences_section. cbn. lia.
  - rewrite join_cons by (by rewrite sections_from_nil).
    specialize (IH (S idx)).
    set (rest := join (NL ++ NL) (sections_from (S idx) texts)) in *.
    change (section_string idx t ++ (NL ++ NL) ++ rest)
      with (section_string idx t ++ 10%N :: ([] ++ 10%N :: rest)).
    assert (Forall (fun c : codepoint => c ≠ 10%N) (lit "--- PAGE ")) as Hp
      by (by repeat (apply Forall_cons; split; [done|])).
    rewrite !occurrences_break, occurrences_section, IH by done.
    cbn. lia.
Qed.

(** X9. The text ["--- PAGE "] occurs in the Output text once for every page
    and once more for every time it occurs in a page's own text; so it occurs
    exactly N times in the Output text of N pages whose texts do not hold
    it. *)
Theorem markers_in_output (texts : list pystr) :
  occurrences (lit "--- PAGE ") (output_text texts) =
    length texts + sum_list (map (occurrences (lit "--- PAGE ")) texts)
  ∧ (Forall (fun t => occurrences (lit "--- PAGE ") t = 0) texts →
     occurrences (lit "--- PAGE ") (output_text texts) = length texts).
Proof.
  split; [apply occurrences_sections|].
  intros Hnone. unfold output_text. rewrite occurrences_sections.
  enough (sum_list (map (occurrences (lit "--- PAGE ")) texts) = 0) by lia.
  induction Hnone as [|t texts Ht _ IH]; [done|].
  cbn in *. lia.
Qed.

Lemma markers_in_output_witness :
  occurrences (lit "--- PAGE ") (output_text [lit "Hello"; []; lit "World"]) = 3.
Proof.
  refine (proj2 (markers_in_output [lit "Hello"; []; lit "World"]) _).
  repeat constructor.
Defined.

(** ** What the write can encode *)

Lemma encodable_app (s t : pystr) :
  encodable (s ++ t) ↔ encodable s ∧ encodable t.
Proof.
  unfold encodable, is_Some. rewrite utf8_encode_app.
  destruct (utf8_encode s) as [a|], (utf8_encode t) as [b|];
    (split;
     [intros [x Hx]; try done; split; by eexists
     |intros [[x Hx] [y Hy]]; try done; by eexists]).
Qed.

Lemma encodable_ascii (s : pystr) :
  Forall (fun c => (c < 0x80)%N) s → encodable s.
Proof. intros Hs. unfold encodable. by rewrite utf8_encode_ascii. Qed.

Lemma translate_newlines_app (ls s t : pystr) :
  translate_newlines ls (s ++ t) =
  translate_newlines ls s ++ translate_newlines ls t.
Proof. apply flat_map_app. Qed.

Lemma translate_newlines_cons (ls : pystr) (c : codepoint) (s : pystr) :
  translate_newlines ls (c :: s) =
  (if (c =? 10)%N then ls else [c]) ++ translate_newlines ls s.
Proof. done. Qed.

(** With a line separator that can be encoded, translating the line ends
    neither adds nor removes what cannot be encoded. *)
Lemma encodable_translate (ls s : pystr) :
  encodable ls →
  encodable (translate_newlines ls s) ↔ encodable s.
Proof.
  intros Hls. induction s as [|c s IH]; [done|].
  rewrite translate_newlines_cons, encodable_app, IH.
  change (c :: s) with ([c] ++ s). rewrite (encodable_app [c] s).
  destruct (N.eqb_spec c 10) as [->|]; [|done].
  assert (encodable [10%N]) by (by eexists). tauto.
Qed.

(** A text with a line end is written with the line separator in it. *)
Lemma encodable_translate_linesep (ls s : pystr) :
  10%N ∈ s → encodable (translate_newlines ls s) → encodable ls.
Proof.
  induction s as [|c s IH]; [by intros ?%elem_of_nil|].
  rewrite translate_newlines_cons, encodable_app.
  intros [<-|Hin]%elem_of_cons [Hc Hs]; [exact Hc|by apply IH].
Qed.

Lemma marker_ascii (idx : nat) : Forall (fun c => (c < 0x80)%N) (marker idx).
Proof.
  unfold marker. rewrite !Forall_app. split; [|split; [|split]].
  - by repeat (apply Forall_cons; split; [done|]).
  - eapply Forall_impl; [apply str_of_int_is_digits|]. cbn. intros c Hc. lia.
  - by repeat (apply Forall_cons; split; [done|]).
  - by repeat (apply Forall_cons; split; [done|]).
Qed.

Lemma encodable_sections (idx : nat) (texts : list pystr) :
  encodable (join (NL ++ NL) (sections_from idx texts)) ↔
  Forall encodable texts.
Proof.
  revert idx. induction texts as [|t texts IH]; intros idx.
  - split; [by constructor|]. intros _. by eexists.
  - rewrite Forall_cons. cbn [sections_from].
    assert (encodable (section_string idx t) ↔ encodable t) as Hsec.
    { rewrite section_string_marker, encodable_app.
      pose proof (encodable_ascii _ (marker_ascii idx)). tauto. }
    destruct (decide (texts = [])) as [->|Hmore].
    + cbn [sections_from join]. rewrite Hsec.
      split; [by split|by intros []].
    + rewrite join_cons by (by rewrite sections_from_nil).
      rewrite !encodable_app, Hsec, IH.
      assert (encodable NL) by (by eexists). tauto.
Qed.

Lemma output_text_newline (texts : list pystr) :
  texts ≠ [] → 10%N ∈ output_text texts.
Proof.
  destruct texts as [|t texts]; [done|]. intros _.
  unfold output_text. cbn [sections_from].
  assert (10%N ∈ section_string 1 t) as Hin.
  { unfold section_string. rewrite !elem_of_app. right. right. right. left.
    apply list_elem_of_here. }
  destruct (decide (texts = [])) as [->|Hmore]; [done|].
  rewrite join_cons by (by rewrite sections_from_nil).
  rewrite elem_of_app. by left.
Qed.

(** X8. For a document with at least one page, the Output text can be
    written in UTF-8 exactly when the platform's line separator and the text
    of every page can: the markers and the separators the script adds never
    stand in the way. *)
Theorem output_encodable_iff_pages (env : Env) (texts : list pystr) :
  texts ≠ [] →
  is_Some (file_octets env (output_text texts)) ↔
  encodable (linesep env) ∧ Forall encodable texts.
Proof.
  intros Hpages. unfold file_octets.
  fold (encodable (translate_newlines (linesep env) (output_text texts))).
  split.
  - intros Henc.
    assert (encodable (linesep env)) as Hls.
    { eapply encodable_translate_linesep; [|exact Henc].
      by apply output_text_newline. }
    split; [done|].
    apply (encodable_sections 1). by apply (encodable_translate _ _ Hls).
  - intros [Hls Htexts].
    apply (encodable_translate _ _ Hls). by apply (encodable_sections 1).
Qed.

Lemma output_encodable_iff_pages_witness :
  is_Some (file_octets (Scenario.windows (Ok Scenario.hello_world))
             (output_text [lit "Hello"; []; lit "World"])) ↔
  encodable Scenario.CRLF ∧ Forall encodable [lit "Hello"; []; lit "World"].
Proof.
  refine (output_encodable_iff_pages
            (Scenario.windows (Ok Scenario.hello_world))
            [lit "Hello"; []; lit "World"] _).
  discriminate.
Defined.

(** ** What a run touches *)

Lemma short_argv_run env (argv : list pystr) w :
  length argv < 3 → python env argv w = (1, put_stderr (usage ++ NL) w).
Proof.
  intros Hlen. unfold python, main.
  by destruct (Nat.ltb_spec (length argv) 3); [|lia].
Qed.

(** X1. Whatever the arguments and however the run ends, every file other
    than the one the output path resolves to is left as it was, no file that
    was there is gone, and the file system has seen nothing but at most one
    [PdfReader] call on the input path followed by at most one [write_text]
    call on the output path. *)
Theorem run_touches_only_the_destination env (argv : list pystr) w :
  let source := argv_at argv 1 in
  let target := argv_at argv 2 in
  let w' := (python env argv w).2 in
  (∀ k, k ≠ locate env target → files w' !! k = files w !! k)
  ∧ (∀ k, is_Some (files w !! k) → is_Some (files w' !! k))
  ∧ (calls w' = calls w
     ∨ calls w' = calls w ++ [CallPdfReader source]
     ∨ ∃ data,
         calls w' = calls w ++ [CallPdfReader source; CallWriteText target data]).
Proof.
  intros source target w'.
  enough ((files w' = files w
           ∨ ∃ content, files w' = <[locate env target := content]> (files w))
          ∧ (calls w' = calls w
             ∨ calls w' = calls w ++ [CallPdfReader source]
             ∨ ∃ data,
                 calls w' =
                   calls w ++ [CallPdfReader source; CallWriteText target data]))
    as [[Hsame|[content Hput]] Hcalls].
  { split; [|split; [|done]]; intros k; by rewrite Hsame. }
  { split; [|split; [|done]]; intros k; rewrite Hput.
    - intros Hk. by rewrite lookup_insert_ne.
    - intros Hk. destruct (decide (locate env target = k)) as [->|Hne].
      + rewrite lookup_insert_eq. by eexists.
      + by rewrite lookup_insert_ne. }
  subst w'.
  destruct (decide (3 ≤ length argv)) as [Hlen|Hlen]; cycle 1.
  { rewrite short_argv_run by lia. split; by left. }
  destruct (argv_at_least_two argv Hlen) as (prog & rest & Hargv).
  fold source target in Hargv. rewrite Hargv.
  rewrite python_run, main_run. cbn zeta.
  destruct (files w !! locate env source) as [content|];
    [|split; [by left|right; by left]].
  destruct (pdf_parse env content) as [pages|e];
    [|split; [by left|right; by left]].
  destruct (first_raise pages) as [e|];
    [split; [by left|right; by left]|].
  set (data := output_text (map page_text pages)).
  destruct (write_text_uniform env target data)
    as [Hrefused|(res & left & Hput)].
  - rewrite Hrefused. split; [by left|].
    right. right. exists data. cbn. by rewrite <- app_assoc.
  - rewrite Hput. split.
    + right. exists left. by destruct res.
    + right. right. exists data. destruct res; cbn; by rewrite <- app_assoc.
Qed.

Lemma run_touches_only_the_destination_witness :
  files (python Scenario.lenient Scenario.argv_ok Scenario.fresh).2
    !! lit "in.pdf" = files Scenario.fresh !! lit "in.pdf".
Proof.
  refine (proj1 (run_touches_only_the_destination Scenario.lenient
                   Scenario.argv_ok Scenario.fresh) (lit "in.pdf") _).
  vm_compute. discriminate.
Defined.

(** ** Documents without pages *)

(** X3. A document without pages only needs a destination that can be
    opened: whatever the line separator and however little room the device
    has, the run succeeds, leaves an empty file at the destination and prints
    ["Wrote {output-path} (0 pages)"]. *)
Theorem no_pages_empty_file env prog source target rest w content :
  files w !! locate env source = Some content →
  pdf_parse env content = Ok [] →
  can_create env target = true →
  ∃ w',
    python env (prog :: source :: target :: rest) w = (0, w')
    ∧ files w' = <[locate env target := []]> (files w)
    ∧ stdout w' =
        stdout w ++ lit "Wrote " ++ path_str env target ++ lit " (0 pages)" ++ NL.
Proof.
  intros Hfile Hparse Hcan.
  assert (write_succeeds env target (output_text (map page_text [])) = true)
    as Hwrite.
  { unfold write_succeeds. rewrite Hcan. cbn.
    by destruct (room env) as [[|n]|]. }
  destruct (main_success env prog source target rest w content []
              Hfile Hparse eq_refl Hwrite) as (octets & Hoct & Hrun).
  injection Hoct as <-.
  eexists. split; [exact Hrun|]. split; [done|].
  cbn. unfold completion_message. by rewrite <- !app_assoc.
Qed.

Lemma no_pages_empty_file_witness :
  ∃ w',
    python (Scenario.nearly_full (Ok [])) Scenario.argv_ok Scenario.fresh = (0, w')
    ∧ files w' = <[lit "out.txt" := []]> (files Scenario.fresh)
    ∧ stdout w' = lit "Wrote " ++ lit "out.txt" ++ lit " (0 pages)" ++ NL.
Proof.
  refine (no_pages_empty_file (Scenario.nearly_full (Ok []))
            (lit "pdf_to_text_temp.py") (lit "in.pdf") (lit "out.txt") []
            Scenario.fresh [Byte.x25; Byte.x50; Byte.x44; Byte.x46] _ _ _).
  - vm_compute. reflexivity.
  - reflexivity.
  - reflexivity.
Defined.

Lemma output_text_head (texts : list pystr) :
  texts ≠ [] → ∃ rest, output_text texts = 45%N :: rest.
Proof.
  destruct texts as [|t texts]; [done|]. intros _.
  unfold output_text. cbn [sections_from].
  destruct (decide (texts = [])) as [->|Hmore].
  - by eexists.
  - rewrite join_cons by (by rewrite sections_from_nil). by eexists.
Qed.

(** X4. The Output text is empty only for a document without pages, and so
    is the file: after a run that succeeds, the destination is empty exactly
    when the document has no page.  A document whose pages are all without
    text still gives its markers. *)
Theorem empty_file_iff_no_pages env (argv : list pystr) w w' content pages :
  python env argv w = (0, w') →
  files w !! locate env (argv_at argv 1) = Some content →
  pdf_parse env content = Ok pages →
  (output_text (map page_text pages) = [] ↔ pages = [])
  ∧ (files w' !! locate env (argv_at argv 2) = Some ([] : bytes) ↔ pages = []).
Proof.
  intros Hrun Hfile Hparse.
  destruct (python_success env argv w w' Hrun)
    as (content' & pages' & octets & Hfile' & Hparse' & _ & Hoct & Hw').
  assert (files w' !! locate env (argv_at argv 2) = Some octets) as Hthere.
  { rewrite Hw'. apply (lookup_insert_eq (files w)). }
  clear Hw'.
  rewrite Hfile in Hfile'. injection Hfile' as <-.
  rewrite Hparse in Hparse'. injection Hparse' as <-.
  assert (pages ≠ [] → ∃ rest, output_text (map page_text pages) = 45%N :: rest)
    as Hhead.
  { intros Hne. apply output_text_head. by destruct pages. }
  split.
  - split; [|by intros ->].
    intros Hempty. destruct pages as [|p pages]; [done|].
    destruct Hhead as [rest Hrest]; [done|]. by rewrite Hrest in Hempty.
  - rewrite Hthere. split.
    + intros [= ->]. destruct pages as [|p pages]; [done|].
      destruct Hhead as [rest Hrest]; [done|].
      unfold file_octets in Hoct. rewrite Hrest in Hoct.
      rewrite translate_newlines_cons in Hoct. cbn in Hoct.
      by destruct (utf8_encode (translate_newlines (linesep env) rest)).
    + intros ->. cbn in Hoct. by injection Hoct as <-.
Qed.

Lemma empty_file_iff_no_pages_witness :
  (output_text (map page_text Scenario.blank_second) = []
   ↔ Scenario.blank_second = [])
  ∧ (files (python (Scenario.posix (Ok Scenario.blank_second)) Scenario.argv_ok
              Scenario.fresh).2 !! lit "out.txt" = Some []
     ↔ Scenario.blank_second = []).
Proof.
  refine (empty_file_iff_no_pages
            (Scenario.posix (Ok Scenario.blank_second)) Scenario.argv_ok
            Scenario.fresh _ [Byte.x25; Byte.x50; Byte.x44; Byte.x46]
            Scenario.blank_second _ _ _).
  - vm_compute. reflexivity.
  - vm_compute. reflexivity.
  - reflexivity.
Defined.

(** ** Page texts in the Output text *)

Lemma join_lookup (sep : pystr) (xs : list pystr) (i : nat) (x : pystr) :
  xs !! i = Some x → ∃ pre post, join sep xs = pre ++ x ++ post.
Proof.
  revert i. induction xs as [|y xs IH]; intros i Hi; [done|].
  destruct (decide (xs = [])) as [->|Hmore].
  - destruct i as [|i]; [|done]. injection Hi as ->.
    exists [], []. cbn. by rewrite app_nil_r.
  - rewrite join_cons by done. destruct i as [|i].
    + injection Hi as ->. by exists [], (sep ++ join sep xs).
    + destruct (IH i Hi) as (pre & post & ->).
      exists (y ++ sep ++ pre), post. by rewrite <- !app_assoc.
Qed.

(** X10. No page's text is lost or changed on the way: the text of page i
    stands in the Output text as it was extracted, right after the marker
    numbered i. *)
Theorem page_text_kept (texts : list pystr) (i : nat) (t : pystr) :
  texts !! i = Some t →
  ∃ pre post,
    output_text texts =
      pre ++ (lit "--- PAGE " ++ str_of_int (S i) ++ lit " ---" ++ NL ++ t) ++ post.
Proof.
  intros Hi.
  apply (join_lookup (NL ++ NL) (sections_from 1 texts) i).
  by rewrite sections_from_lookup, Hi.
Qed.

Lemma page_text_kept_witness :
  ∃ pre post,
    output_text [lit "Hello"; []; lit "World"] =
      pre ++ (lit "--- PAGE " ++ str_of_int 3 ++ lit " ---" ++ NL ++ lit "World")
        ++ post.
Proof.
  refine (page_text_kept [lit "Hello"; []; lit "World"] 2 (lit "World") _).
  reflexivity.
Defined.

(** ** The markers of the Output text, in order *)

Lemma occurrence_tails_length (p s : pystr) :
  length (occurrence_tails p s) = occurrences p s.
Proof.
  induction s as [|c s IH]; [done|].
  cbn [occurrence_tails occurrences]. rewrite length_app, IH.
  by destruct (starts_with p (c :: s)).
Qed.

(** Occurrences on either side of a character the text does not hold: those
    before it read on across it, those after it are as they were. *)
Lemma occurrence_tails_break (p a b : pystr) (x : codepoint) :
  p ≠ [] → Forall (fun c => c ≠ x) p →
  occurrence_tails p (a ++ x :: b) =
  map (fun s => s ++ x :: b) (occurrence_tails p a) ++ occurrence_tails p b.
Proof.
  intros Hne Hp. induction a as [|d a IH].
  - cbn [app occurrence_tails map].
    rewrite <- (app_nil_l (x :: b)), starts_with_before_break by done.
    by destruct p.
  - change ((d :: a) ++ x :: b) with (d :: (a ++ x :: b)).
    cbn [occurrence_tails].
    change (d :: (a ++ x :: b)) with ((d :: a) ++ x :: b).
    rewrite starts_with_before_break, IH, map_app by done.
    rewrite app_assoc. by destruct (starts_with p (d :: a)).
Qed.

Lemma occurrence_tails_none (p s : pystr) :
  occurrences p s = 0 → occurrence_tails p s = [].
Proof.
  rewrite <- occurrence_tails_length. by destruct (occurrence_tails p s).
Qed.

(** The one occurrence in the Section of a page whose text holds none is the
    Section's own marker. *)
Lemma occurrence_tails_section (idx : nat) (t : pystr) :
  occurrences (lit "--- PAGE ") t = 0 →
  occurrence_tails (lit "--- PAGE ") (section_string idx t) =
  [section_string idx t].
Proof.
  intros Hnone.
  pose proof (occurrence_tails_length (lit "--- PAGE ") (section_string idx t))
    as Hlen.
  rewrite occurrences_section, Hnone in Hlen.
  assert (∀ s, ∃ more,
            occurrence_tails (lit "--- PAGE ") (lit "--- PAGE " ++ s) =
            (lit "--- PAGE " ++ s) :: more) as Hown by (by eexists).
  unfold section_string in *.
  destruct (Hown (str_of_int idx ++ lit " ---" ++ NL ++ t)) as [more Hmore].
  rewrite Hmore in Hlen |- *. by destruct more.
Qed.

Lemma seq_shift_map {A} (f : nat → A) (n : nat) :
  map f (seq 1 n) = map (fun k => f (S k)) (seq 0 n).
Proof. by rewrite <- seq_shift, map_map. Qed.

(** When no page text holds one, the occurrences in the Output text are the
    places where the Sections begin, in page order. *)
Lemma occurrence_tails_sections (idx : nat) (texts : list pystr) :
  Forall (fun t => occurrences (lit "--- PAGE ") t = 0) texts →
  occurrence_tails (lit "--- PAGE ") (join (NL ++ NL) (sections_from idx texts)) =
  map (fun k => join (NL ++ NL) (sections_from (idx + k) (drop k texts)))
    (seq 0 (length texts)).
Proof.
  intros Hnone. revert idx.
  induction Hnone as [|t texts Ht _ IH]; intros idx; [done|].
  cbn [length seq map drop]. rewrite seq_shift_map, Nat.add_0_r.
  cbn [sections_from].
  assert (map (fun k => join (NL ++ NL)
                          (sections_from (idx + S k) (drop (S k) (t :: texts))))
            (seq 0 (length texts)) =
          map (fun k => join (NL ++ NL) (sections_from (S idx + k) (drop k texts)))
            (seq 0 (length texts))) as ->.
  { apply map_ext; intros k. cbn [drop].
    by replace (idx + S k) with (S idx + k) by lia. }
  rewrite <- IH.
  destruct (decide (texts = [])) as [->|Hmore].
  - cbn [sections_from join occurrence_tails]. by apply occurrence_tails_section.
  - rewrite join_cons by (by rewrite sections_from_nil).
    set (rest := join (NL ++ NL) (sections_from (S idx) texts)).
    change (section_string idx t ++ (NL ++ NL) ++ rest)
      with (section_string idx t ++ 10%N :: ([] ++ 10%N :: rest)).
    assert (Forall (fun c : codepoint => c ≠ 10%N) (lit "--- PAGE ")) as Hp
      by (by repeat (apply Forall_cons; split; [done|])).
    rewrite !occurrence_tails_break by done.
    by rewrite occurrence_tails_section by done.
Qed.

Lemma join_head (sep x : pystr) (xs : list pystr) :
  ∃ rest, join sep (x :: xs) = x ++ rest.
Proof.
  destruct xs as [|y xs]; [exists []; cbn; by rewrite app_nil_r|].
  by eexists.
Qed.

(** C1, the claim as it stands, fails in its last part.  A document of two
    pages whose first page reads ["--- PAGE 9 ---"] gives an Output text that
    is the join the claim describes, and that text holds three markers, not
    two; read in order their numbers are 1, 9 and 2. *)
Lemma marker_in_page_text_is_counted :
  calls (python (Scenario.posix (Ok Scenario.marker_in_text)) Scenario.argv_ok
           Scenario.fresh).2 =
    [CallPdfReader (lit "in.pdf");
     CallWriteText (lit "out.txt") Scenario.marker_in_text_output]
  ∧ length Scenario.marker_in_text = 2
  ∧ occurrences (lit "--- PAGE ") Scenario.marker_in_text_output = 3
  ∧ map (take 14)
      (occurrence_tails (lit "--- PAGE ") Scenario.marker_in_text_output) =
    [lit "--- PAGE 1 ---"; lit "--- PAGE 9 ---"; lit "--- PAGE 2 ---"].
Proof.
  split; [by vm_compute|]. split; [done|]. split; by vm_compute.
Qed.

(** C1, amended.  For a document whose N pages extract to the texts t1..tN
    (an absent result counting as the empty string), the text the script
    hands to [write_text] is the join, with separator ["\n\n"], of the
    Sections ["--- PAGE i ---\n" ++ ti] for i = 1..N in page order; for N = 0
    it is empty.  In that text ["--- PAGE "] occurs once for every page and
    once more for every time it occurs in a page's own text.  When no page
    text holds it, the text holds exactly N markers, and the k-th of them,
    first to last, is the marker numbered k, followed by the text of
    page k. *)
Theorem output_is_joined_sections env prog source target rest w content
    (rs : list (option pystr)) :
  files w !! locate env source = Some content →
  pdf_parse env content = Ok (map Returns rs) →
  let texts := map (default []) rs in
  let N := length rs in
  ∃ out,
    calls (python env (prog :: source :: target :: rest) w).2 =
      calls w ++ [CallPdfReader source; CallWriteText target out]
    ∧ out =
        join (NL ++ NL)
          (map (fun i => lit "--- PAGE " ++ str_of_int i ++ lit " ---" ++ NL
                           ++ nth (i - 1) texts [])
             (seq 1 N))
    ∧ (N = 0 → out = [])
    ∧ occurrences (lit "--- PAGE ") out =
        N + sum_list (map (occurrences (lit "--- PAGE ")) texts)
    ∧ (Forall (fun t => occurrences (lit "--- PAGE ") t = 0) texts →
       occurrences (lit "--- PAGE ") out = N
       ∧ length (occurrence_tails (lit "--- PAGE ") out) = N
       ∧ ∀ k, k < N →
           ∃ after,
             occurrence_tails (lit "--- PAGE ") out !! k =
               Some (lit "--- PAGE " ++ str_of_int (S k) ++ lit " ---" ++ NL
                       ++ nth k texts [] ++ after)).
Proof.
  intros Hfile Hparse texts N.
  assert (@length pystr texts = N) as Hlen by apply length_map.
  exists (output_text texts).
  split; [|clearbody texts N; split; [|split; [|split]]].
  - rewrite (main_calls_returns _ _ _ _ _ _ _ _ Hfile Hparse)
      by apply first_raise_returns.
    by rewrite page_text_returns.
  - unfold output_text. rewrite sections_from_spec.
    unfold spec_sections. rewrite Hlen.
    f_equal. apply map_ext; intros i.
    unfold marker. by rewrite <- !app_assoc.
  - intros HN. rewrite HN in Hlen. by destruct texts.
  - unfold output_text. by rewrite occurrences_sections, Hlen.
  - intros Hnone.
    assert (occurrences (lit "--- PAGE ") (output_text texts) = N) as Hcount.
    { unfold output_text. rewrite occurrences_sections, Hlen.
      enough (sum_list (map (occurrences (lit "--- PAGE ")) texts) = 0) by lia.
      clear Hlen. induction Hnone as [|t texts Ht _ IH]; [done|].
      cbn in *. lia. }
    split; [done|]. split; [by rewrite occurrence_tails_length|].
    intros k Hk. unfold output_text.
    rewrite occurrence_tails_sections by done.
    rewrite list_lookup_fmap, lookup_seq_lt by lia.
    cbn [fmap option_fmap option_map].
    assert (is_Some (texts !! k)) as [t Ht].
    { apply lookup_lt_is_Some. unfold pystr in *. lia. }
    cbn [Nat.add]. unfold pystr in *.
    rewrite (drop_S _ _ _ Ht), (nth_lookup_Some _ _ _ _ Ht).
    cbn [sections_from].
    destruct (join_head (NL ++ NL) (section_string (S k) t)
                (sections_from (S (S k)) (drop (S k) texts)))
      as [after ->].
    exists after. unfold section_string.
    by rewrite <- !app_assoc.
Qed.

Lemma output_is_joined_sections_witness :
  ∃ out,
    calls (python (Scenario.posix (Ok Scenario.blank_second))
             Scenario.argv_ok Scenario.fresh).2 =
      [CallPdfReader (lit "in.pdf"); CallWriteText (lit "out.txt") out]
    ∧ out =
        join (NL ++ NL)
          (map (fun i => lit "--- PAGE " ++ str_of_int i ++ lit " ---" ++ NL
                           ++ nth (i - 1) [lit "a"; []; lit "b"] [])
             (seq 1 3))
    ∧ occurrences (lit "--- PAGE ") out = 3.
Proof.
  destruct (output_is_joined_sections
              (Scenario.posix (Ok Scenario.blank_second))
              (lit "pdf_to_text_temp.py") (lit "in.pdf") (lit "out.txt") []
              Scenario.fresh [Byte.x25; Byte.x50; Byte.x44; Byte.x46]
              [Some (lit "a"); None; Some (lit "b")])
    as (out & Hcalls & Hout & _ & _ & Hmarkers).
  - vm_compute. reflexivity.
  - reflexivity.
  - exists out. split; [exact Hcalls|]. split; [exact Hout|].
    refine (proj1 (Hmarkers _)). repeat constructor.
Defined.
